(** * Client handshake of rust-websocket (src/client/builder.rs)

    A shallow embedding of [ClientBuilder]: its header bookkeeping,
    [build_request], [validate] and the blocking [connect_on], together with
    the header types of the crate ([WebSocketKey], [WebSocketAccept]) that
    the client code relies on. *)

From Stdlib Require Import ZArith List String Ascii Bool Lia.
Import ListNotations.
Open Scope Z_scope.

(** ** Bytes and base64 *)

Module Codec.

Definition bytes_of_string (s : string) : list Z :=
  map (fun c => Z.of_nat (nat_of_ascii c)) (list_ascii_of_string s).

Definition string_of_bytes (l : list Z) : string :=
  string_of_list_ascii (map (fun z => ascii_of_nat (Z.to_nat z)) l).

Definition b64_alphabet : string :=
  "ABCDEFGHIJKLMNOPQRSTUVWXYZabcdefghijklmnopqrstuvwxyz0123456789+/".

Definition b64_char (v : Z) : ascii :=
  match String.get (Z.to_nat v) b64_alphabet with
  | Some c => c
  | None => "="%char
  end.

(** Standard base64 with [=] padding, three bytes to four characters. *)
Fixpoint b64_encode_aux (fuel : nat) (l : list Z) : list ascii :=
  match fuel with
  | O => []
  | S f =>
    match l with
    | [] => []
    | [a] =>
      [b64_char (Z.shiftr a 2); b64_char (Z.shiftl (Z.land a 3) 4);
       "="%char; "="%char]
    | [a; b] =>
      [b64_char (Z.shiftr a 2);
       b64_char (Z.lor (Z.shiftl (Z.land a 3) 4) (Z.shiftr b 4));
       b64_char (Z.shiftl (Z.land b 15) 2); "="%char]
    | a :: b :: c :: rest =>
      b64_char (Z.shiftr a 2)
      :: b64_char (Z.lor (Z.shiftl (Z.land a 3) 4) (Z.shiftr b 4))
      :: b64_char (Z.lor (Z.shiftl (Z.land b 15) 2) (Z.shiftr c 6))
      :: b64_char (Z.land c 63)
      :: b64_encode_aux f rest
    end
  end.

Definition b64_encode (l : list Z) : string :=
  string_of_list_ascii (b64_encode_aux (List.length l) l).

Fixpoint index_of (c : ascii) (s : string) (i : Z) : option Z :=
  match s with
  | EmptyString => None
  | String d s' => if Ascii.eqb c d then Some i else index_of c s' (i + 1)
  end.

Definition b64_value (c : ascii) : option Z := index_of c b64_alphabet 0.

(** Decoding of padded base64: four characters to at most three bytes. *)
Fixpoint b64_decode_aux (fuel : nat) (l : list ascii) : option (list Z) :=
  match fuel with
  | O => Some []
  | S f =>
    match l with
    | [] => Some []
    | [c1; c2; "="%char; "="%char] =>
      match b64_value c1, b64_value c2 with
      | Some v1, Some v2 =>
        Some [Z.lor (Z.shiftl v1 2) (Z.shiftr v2 4)]
      | _, _ => None
      end
    | [c1; c2; c3; "="%char] =>
      match b64_value c1, b64_value c2, b64_value c3 with
      | Some v1, Some v2, Some v3 =>
        Some [Z.lor (Z.shiftl v1 2) (Z.shiftr v2 4);
              Z.land (Z.lor (Z.shiftl v2 4) (Z.shiftr v3 2)) 255]
      | _, _, _ => None
      end
    | c1 :: c2 :: c3 :: c4 :: rest =>
      match b64_value c1, b64_value c2, b64_value c3, b64_value c4 with
      | Some v1, Some v2, Some v3, Some v4 =>
        match b64_decode_aux f rest with
        | Some r =>
          Some (Z.lor (Z.shiftl v1 2) (Z.shiftr v2 4)
                :: Z.land (Z.lor (Z.shiftl v2 4) (Z.shiftr v3 2)) 255
                :: Z.land (Z.lor (Z.shiftl v3 6) v4) 255 :: r)
        | None => None
        end
      | _, _, _, _ => None
      end
    | _ => None
    end
  end.

Definition b64_decode (s : string) : option (list Z) :=
  let l := list_ascii_of_string s in b64_decode_aux (List.length l) l.

End Codec.

(** ** SHA-1 over bytes, 32-bit words written as [Z] with explicit wrap-around *)

Module Sha1.

Definition mask32 (x : Z) : Z := Z.land x (Z.ones 32).
Definition add32 (x y : Z) : Z := mask32 (x + y).
Definition rotl32 (x : Z) (n : Z) : Z :=
  mask32 (Z.lor (Z.shiftl x n) (Z.shiftr x (32 - n))).
Definition not32 (x : Z) : Z := Z.lxor x (Z.ones 32).

Definition be_bytes (n : nat) (x : Z) : list Z :=
  map (fun i => Z.land (Z.shiftr x (8 * Z.of_nat (n - 1 - i))) 255) (seq 0 n).

Definition pad (msg : list Z) : list Z :=
  let len := Z.of_nat (List.length msg) in
  let zeros := Z.to_nat ((55 - len) mod 64) in
  msg ++ [128] ++ repeat 0 zeros ++ be_bytes 8 (8 * len).

Fixpoint words_of (fuel : nat) (l : list Z) : list Z :=
  match fuel, l with
  | S f, a :: b :: c :: d :: rest =>
    Z.lor (Z.shiftl a 24) (Z.lor (Z.shiftl b 16) (Z.lor (Z.shiftl c 8) d))
    :: words_of f rest
  | _, _ => []
  end.

(** Message schedule: the 16 block words extended to 80. *)
Fixpoint schedule (n : nat) (w : list Z) : list Z :=
  match n with
  | O => w
  | S k =>
    let i := List.length w in
    let get j := nth j w 0 in
    schedule k (w ++ [rotl32 (Z.lxor (Z.lxor (get (i - 3)%nat) (get (i - 8)%nat))
                                     (Z.lxor (get (i - 14)%nat) (get (i - 16)%nat))) 1])
  end.

Definition round (t : nat) (st : Z * Z * Z * Z * Z) (wt : Z) : Z * Z * Z * Z * Z :=
  let '(a, b, c, d, e) := st in
  let '(f, k) :=
    if (t <? 20)%nat then (Z.lor (Z.land b c) (Z.land (not32 b) d), 1518500249)
    else if (t <? 40)%nat then (Z.lxor b (Z.lxor c d), 1859775393)
    else if (t <? 60)%nat then
      (Z.lor (Z.lor (Z.land b c) (Z.land b d)) (Z.land c d), 2400959708)
    else (Z.lxor b (Z.lxor c d), 3395469782) in
  let tmp := add32 (add32 (add32 (add32 (rotl32 a 5) f) e) k) wt in
  (tmp, a, rotl32 b 30, c, d).

Fixpoint rounds (t : nat) (st : Z * Z * Z * Z * Z) (ws : list Z) :=
  match ws with
  | [] => st
  | w :: ws' => rounds (S t) (round t st w) ws'
  end.

Definition compress (h : Z * Z * Z * Z * Z) (block : list Z) :=
  let '(h0, h1, h2, h3, h4) := h in
  let '(a, b, c, d, e) := rounds 0 h (schedule 64 (words_of 16 block)) in
  (add32 h0 a, add32 h1 b, add32 h2 c, add32 h3 d, add32 h4 e).

Fixpoint blocks (fuel : nat) (h : Z * Z * Z * Z * Z) (l : list Z) :=
  match fuel with
  | O => h
  | S f =>
    match l with
    | [] => h
    | _ => blocks f (compress h (firstn 64 l)) (skipn 64 l)
    end
  end.

Definition sha1 (msg : list Z) : list Z :=
  let p := pad msg in
  let '(h0, h1, h2, h3, h4) :=
    blocks (List.length p) (1732584193, 4023233417, 2562383102, 271733878, 3285377520) p in
  be_bytes 4 h0 ++ be_bytes 4 h1 ++ be_bytes 4 h2 ++ be_bytes 4 h3 ++ be_bytes 4 h4.

End Sha1.

(** ** Header types of the crate (src/header/*, absent from src/) *)

Module Header.
Import Codec.

(** Modelled from the spec: [WebSocketKey] of src/header/key.rs is not under
    src/; the spec gives the key as 16 bytes sent base64-encoded
    ([Sec-WebSocket-Key: base64(random[16])]). [serialize] base64-encodes the
    bytes, [from_str] decodes canonical base64 and requires exactly 16
    bytes. *)
Definition key_serialize (k : list Z) : string := b64_encode k.

Definition key_from_str (s : string) : option (list Z) :=
  match b64_decode s with
  | Some k =>
    if Nat.eqb (List.length k) 16 && String.eqb (b64_encode k) s then Some k else None
  | None => None
  end.

Definition MAGIC_GUID : string := "258EAFA5-E914-47DA-95CA-C5AB0DC85B11".

(** Modelled from the spec: [WebSocketAccept::new] of src/header/accept.rs
    is not under src/; the spec gives the accept value as
    base64(SHA1(sent_key ++ "258EAFA5-E914-47DA-95CA-C5AB0DC85B11")), where
    the sent key is the base64 text of the key. *)
Definition accept_new (k : list Z) : string :=
  b64_encode (Sha1.sha1 (bytes_of_string (key_serialize k ++ MAGIC_GUID))).

(** [WebSocketVersion] and its header value. *)
Inductive WebSocketVersion := WebSocket13 | Unknown (s : string).

Definition version_value (v : WebSocketVersion) : string :=
  match v with WebSocket13 => "13" | Unknown s => s end.

(** Header values of [Connection(vec![Upgrade])] and
    [Upgrade(vec![Protocol { name: WebSocket, version: None }])]. *)
Definition connection_upgrade_value : string := "Upgrade".
Definition upgrade_websocket_value : string := "websocket".

End Header.

(** ** [http::HeaderMap]

    Header names are normalised lower-case strings; each name maps to the
    non-empty list of its values. [get] yields the first value, [insert]
    replaces all values of a name, [remove] drops the name, and [extend]
    with another map replaces, name by name, the values of the names the
    other map holds. *)

Module HeaderMap.

Definition t := list (string * list string).

Definition empty : t := [].

Fixpoint get_all (n : string) (m : t) : list string :=
  match m with
  | [] => []
  | (n', vs) :: m' => if String.eqb n n' then vs else get_all n m'
  end.

Definition get (n : string) (m : t) : option string := hd_error (get_all n m).

Fixpoint set_all (n : string) (vs : list string) (m : t) : t :=
  match m with
  | [] => [(n, vs)]
  | (n', vs') :: m' =>
    if String.eqb n n' then (n', vs) :: m' else (n', vs') :: set_all n vs m'
  end.

Definition insert (n : string) (v : string) (m : t) : t := set_all n [v] m.

Definition remove (n : string) (m : t) : t :=
  filter (fun p => negb (String.eqb n (fst p))) m.

Fixpoint extend (m : t) (other : t) : t :=
  match other with
  | [] => m
  | (n, vs) :: o' => extend (set_all n vs m) o'
  end.

End HeaderMap.

Local Open Scope string_scope.

Definition HOST := "host".
Definition CONNECTION := "connection".
Definition UPGRADE := "upgrade".
Definition ORIGIN := "origin".
Definition SEC_WEBSOCKET_ACCEPT := "sec-websocket-accept".
Definition SEC_WEBSOCKET_EXTENSIONS := "sec-websocket-extensions".
Definition SEC_WEBSOCKET_KEY := "sec-websocket-key".
Definition SEC_WEBSOCKET_PROTOCOL := "sec-websocket-protocol".
Definition SEC_WEBSOCKET_VERSION := "sec-websocket-version".

(** ** [url::Url], the parts the client reads *)

Record Url := {
  scheme : string;
  host_str : option string;
  (** [Url::port()]: [None] when absent or equal to the scheme's default *)
  port : option Z;
  path : string;
  query : option string
}.

Definition scheme_default_port (s : string) : option Z :=
  if String.eqb s "ws" then Some 80
  else if String.eqb s "wss" then Some 443
  else if String.eqb s "http" then Some 80
  else if String.eqb s "https" then Some 443
  else None.

(** What [Url::parse] stores for an explicit port written in the URL: the
    url crate drops a port equal to the scheme's default. *)
Definition url_port (s : string) (explicit : option Z) : option Z :=
  match explicit, scheme_default_port s with
  | Some p, Some d => if Z.eqb p d then None else Some p
  | e, _ => e
  end.

(** [&url[Position::BeforePath..Position::AfterQuery]] *)
Definition path_and_query (u : Url) : string :=
  path u ++ match query u with Some q => "?" ++ q | None => "" end.

(** ** [http::Version] and its [Debug] output *)

Inductive Version := HTTP_09 | HTTP_10 | HTTP_11 | HTTP_2.

Definition version_debug (v : Version) : string :=
  match v with
  | HTTP_09 => "HTTP/0.9" | HTTP_10 => "HTTP/1.0"
  | HTTP_11 => "HTTP/1.1" | HTTP_2 => "HTTP/2.0"
  end.

(** ** [ClientBuilder] *)

Record ClientBuilder := {
  url : Url;
  version : Version;
  headers : HeaderMap.t;
  version_set : bool;
  key_set : bool
}.

Definition with_headers (b : ClientBuilder) (h : HeaderMap.t) (vs ks : bool) :=
  {| url := url b; version := version b; headers := h;
     version_set := vs; key_set := ks |}.

Module Builder.
Import HeaderMap.

Definition init (u : Url) : ClientBuilder :=
  {| url := u; version := HTTP_11; version_set := false; key_set := false;
     headers := empty |}.

Fixpoint join_comma (l : list string) : string :=
  match l with
  | [] => ""
  | [x] => x
  | x :: l' => x ++ ", " ++ join_comma l'
  end.

Definition add_protocols (b : ClientBuilder) (ps : list string) :=
  with_headers b (insert SEC_WEBSOCKET_PROTOCOL (join_comma ps) (headers b))
    (version_set b) (key_set b).
Definition clear_protocols (b : ClientBuilder) :=
  with_headers b (remove SEC_WEBSOCKET_PROTOCOL (headers b)) (version_set b) (key_set b).
Definition add_extensions (b : ClientBuilder) (es : list string) :=
  with_headers b (insert SEC_WEBSOCKET_EXTENSIONS (join_comma es) (headers b))
    (version_set b) (key_set b).
Definition clear_extensions (b : ClientBuilder) :=
  with_headers b (remove SEC_WEBSOCKET_EXTENSIONS (headers b)) (version_set b) (key_set b).
Definition key (b : ClientBuilder) (k : list Z) :=
  with_headers b (insert SEC_WEBSOCKET_KEY (Header.key_serialize k) (headers b))
    (version_set b) true.
Definition clear_key (b : ClientBuilder) :=
  with_headers b (remove SEC_WEBSOCKET_KEY (headers b)) (version_set b) false.
Definition set_version (b : ClientBuilder) (v : Header.WebSocketVersion) :=
  with_headers b (insert SEC_WEBSOCKET_VERSION (Header.version_value v) (headers b))
    true (key_set b).
Definition clear_version (b : ClientBuilder) :=
  with_headers b (remove SEC_WEBSOCKET_VERSION (headers b)) false (key_set b).
Definition origin (b : ClientBuilder) (o : string) :=
  with_headers b (insert ORIGIN o (headers b)) (version_set b) (key_set b).
Definition clear_origin (b : ClientBuilder) :=
  with_headers b (remove ORIGIN (headers b)) (version_set b) (key_set b).
Definition custom_headers (b : ClientBuilder) (hs : HeaderMap.t) :=
  with_headers b (extend (headers b) hs) (version_set b) (key_set b).
Definition clear_header (b : ClientBuilder) (n : string) :=
  with_headers b (remove n (headers b)) (version_set b) (key_set b).

(** The builder methods, as a configuration script. *)
Inductive op :=
| AddProtocols (ps : list string) | ClearProtocols
| AddExtensions (es : list string) | ClearExtensions
| Key (k : list Z) | ClearKey
| SetVersion (v : Header.WebSocketVersion) | ClearVersion
| Origin (o : string) | ClearOrigin
| CustomHeaders (hs : HeaderMap.t) | ClearHeader (n : string).

Definition apply_op (b : ClientBuilder) (o : op) : ClientBuilder :=
  match o with
  | AddProtocols ps => add_protocols b ps
  | ClearProtocols => clear_protocols b
  | AddExtensions es => add_extensions b es
  | ClearExtensions => clear_extensions b
  | Key k => key b k
  | ClearKey => clear_key b
  | SetVersion v => set_version b v
  | ClearVersion => clear_version b
  | Origin o => origin b o
  | ClearOrigin => clear_origin b
  | CustomHeaders hs => custom_headers b hs
  | ClearHeader n => clear_header b n
  end.

Definition configure (u : Url) (ops : list op) : ClientBuilder :=
  fold_left apply_op ops (init u).

End Builder.

(** ** Text helpers *)

Definition CR : ascii := ascii_of_nat 13.
Definition LF : ascii := ascii_of_nat 10.
Definition crlf : string := String CR (String LF EmptyString).
Definition crlfcrlf : string := crlf ++ crlf.
Definition dquote : string := String (ascii_of_nat 34) EmptyString.

Fixpoint decimal (fuel : nat) (n : Z) (acc : string) : string :=
  match fuel with
  | O => acc
  | S f =>
    let acc' := String (ascii_of_nat (48 + Z.to_nat (n mod 10))) acc in
    if Z.ltb n 10 then acc' else decimal f (n / 10) acc'
  end.

(** [Display] of an unsigned integer. *)
Definition string_of_Z (n : Z) : string := decimal 20 n "".

Definition ascii_lower (c : ascii) : ascii :=
  let n := nat_of_ascii c in
  if (65 <=? n)%nat && (n <=? 90)%nat then ascii_of_nat (n + 32) else c.

(** [str::to_lowercase], on the visible ASCII text [HeaderValue::to_str]
    yields. *)
Definition to_lowercase (s : string) : string :=
  string_of_list_ascii (map ascii_lower (list_ascii_of_string s)).

(** [HeaderValue::to_str]: succeeds iff every byte is visible ASCII or tab. *)
Definition header_to_str (v : string) : option string :=
  if forallb (fun c => let n := nat_of_ascii c in
                       ((32 <=? n)%nat && (n <? 127)%nat) || (n =? 9)%nat)
             (list_ascii_of_string v)
  then Some v else None.

Definition option_string_eqb (a b : option string) : bool :=
  match a, b with
  | Some x, Some y => String.eqb x y
  | None, None => true
  | _, _ => false
  end.

(** ** Errors and results *)

Inductive WebSocketError :=
| ResponseError (msg : string)
| RequestError (msg : string)
| IoError (e : nat)
| HttpError.

(** A call of the client returns [Ok], returns an error, panics (an
    [unwrap] on an error, an arithmetic overflow, an out-of-range slice), or
    is still running when the fuel the model was given runs out. *)
Inductive Outcome (A : Type) :=
| Ok (a : A)
| Err (e : WebSocketError)
| Panic (msg : string)
| Running.
Arguments Ok {A}.
Arguments Err {A}.
Arguments Panic {A}.
Arguments Running {A}.

(** ** [build_request] *)

(** The [Host] value: the port is dropped when [Url::port()] is [None], 80
    or 443. *)
Definition host_value (u : Url) (h : string) : string :=
  match port u with
  | None => h
  | Some p => if Z.eqb p 80 || Z.eqb p 443 then h else h ++ ":" ++ string_of_Z p
  end.

(** [build_request] updates the builder's headers and returns the resource;
    [rnd] are the 16 random bytes [WebSocketKey::new()] draws. *)
Definition build_request (rnd : list Z) (b : ClientBuilder) : ClientBuilder * string :=
  let h0 := headers b in
  let h1 := match host_str (url b) with
            | Some h => HeaderMap.insert HOST (host_value (url b) h) h0
            | None => h0
            end in
  let h2 := HeaderMap.insert CONNECTION Header.connection_upgrade_value h1 in
  let h3 := HeaderMap.insert UPGRADE Header.upgrade_websocket_value h2 in
  let h4 := if version_set b then h3
            else HeaderMap.insert SEC_WEBSOCKET_VERSION
                   (Header.version_value Header.WebSocket13) h3 in
  let h5 := if key_set b then h4
            else HeaderMap.insert SEC_WEBSOCKET_KEY (Header.key_serialize rnd) h4 in
  (with_headers b h5 (version_set b) (key_set b), path_and_query (url b)).

(** ** [validate] *)

Record ResponseHead := {
  resp_version : Version;
  subject : Z;
  resp_headers : HeaderMap.t
}.

(** [let status = if response.subject != SWITCHING_PROTOCOLS { None } else { Some(..) }] *)
Definition status_check (code : Z) : option Z :=
  if negb (Z.eqb code 101) then None else Some code.

Definition validate (b : ClientBuilder) (response : ResponseHead) : Outcome unit :=
  match status_check (subject response) with
  | None => Err (ResponseError "Status code must be Switching Protocols")
  | Some _ =>
  match HeaderMap.get SEC_WEBSOCKET_KEY (headers b) with
  | None => Err (RequestError "Request Sec-WebSocket-Key was invalid")
  | Some kv =>
    match header_to_str kv with
    | None => Panic "called `Result::unwrap()` on an `Err` value"
    | Some ks =>
      match Header.key_from_str ks with
      | None => Panic "called `Result::unwrap()` on an `Err` value"
      | Some k =>
        if negb (option_string_eqb (HeaderMap.get SEC_WEBSOCKET_ACCEPT (resp_headers response))
                                   (Some (Header.accept_new k))) then
          Err (ResponseError "Sec-WebSocket-Accept is invalid")
        else if negb (option_string_eqb
                        (match HeaderMap.get UPGRADE (resp_headers response) with
                         | Some v => option_map to_lowercase (header_to_str v)
                         | None => None
                         end)
                        (Some "websocket")) then
          Err (ResponseError "Upgrade field must be WebSocket")
        else if negb (option_string_eqb (HeaderMap.get CONNECTION (headers b))
                                        (Some Header.connection_upgrade_value)) then
          Err (ResponseError "Connection field must be 'Upgrade'")
        else Ok tt
      end
    end
  end
  end.

(** ** The stream and the blocking [connect_on] *)

(** What a read of the stream yields, one byte at a time: a byte, or an
    I/O error. The end of the list is end-of-file. Writes either all
    succeed or fail with [write_error]. *)
Inductive Item := Byte (c : ascii) | Fail (e : nat).

Record Stream := {
  input : list Item;
  write_error : option nat
}.

Inductive ReadLine := ReadOk (line : string) (rest : list Item) | ReadErr (e : nat).

(** [BufRead::read_line]: bytes up to and including the next [\n], or up
    to end-of-file ([ReadOk "" []] at end-of-file). *)
Fixpoint read_line (s : list Item) : ReadLine :=
  match s with
  | [] => ReadOk "" []
  | Fail e :: _ => ReadErr e
  | Byte c :: s' =>
    if Ascii.eqb c LF then ReadOk (String c EmptyString) s'
    else match read_line s' with
         | ReadOk l r => ReadOk (String c l) r
         | ReadErr e => ReadErr e
         end
  end.

(** The loop
<<
    loop {
        reader.read_line(&mut buf).unwrap();
        if &buf[buf.len() - 4..] == "\r\n\r\n" { break; }
    }
>>
    run for at most [fuel] iterations. [buf.len() - 4] panics on a buffer
    shorter than four bytes (overflow in debug builds; in release builds the
    wrapped index puts the slice out of range, which panics as well). *)
Fixpoint read_head (fuel : nat) (s : list Item) (buf : string)
  : Outcome (string * list Item) :=
  match fuel with
  | O => Running
  | S f =>
    match read_line s with
    | ReadErr _ => Panic "called `Result::unwrap()` on an `Err` value"
    | ReadOk line s' =>
      let buf' := buf ++ line in
      if (String.length buf' <? 4)%nat then Panic "attempt to subtract with overflow"
      else if String.eqb (substring (String.length buf' - 4) 4 buf') crlfcrlf
      then Ok (buf', s')
      else read_head f s' buf'
    end
  end.

(** [Debug] of a [HeaderMap]: [{"name": "value", ...}], one entry per value. *)
Definition headers_debug (m : HeaderMap.t) : string :=
  "{" ++ Builder.join_comma
           (flat_map (fun p => map (fun v => dquote ++ fst p ++ dquote ++ ": "
                                              ++ dquote ++ v ++ dquote) (snd p)) m)
  ++ "}".

(** Result of [httparse::Response::parse] on the buffered head, with the
    fields [connect_on] reads: the parsed length, [res.code],
    [res.version] and the headers. *)
Inductive ParseStatus :=
| ParseErr
| Partial
| Complete (len : nat) (code : Z) (minor_version : Z) (hs : HeaderMap.t).

(** The client returned on success: the reader positioned after the head
    and the response headers. *)
Record Client := { client_rest : list Item; client_headers : HeaderMap.t }.

Section ConnectOn.

(** HTTP/1.1 head parsing is the external [httparse] primitive. *)
Variable parse : string -> ParseStatus.

(** [connect_on]: the outcome and the bytes written to the stream. *)
Definition connect_on (fuel : nat) (rnd : list Z) (b : ClientBuilder) (stream : Stream)
  : Outcome Client * string :=
  let '(b', resource) := build_request rnd b in
  match write_error stream with
  | Some e => (Err (IoError e), "")
  | None =>
    let written := "GET " ++ resource ++ " " ++ version_debug (version b') ++ crlf
                   ++ headers_debug (headers b') ++ crlf in
    let result :=
      match read_head fuel (input stream) "" with
      | Ok (buf, rest) =>
        match parse buf with
        | ParseErr => Err HttpError
        | Partial => Err HttpError
        | Complete _ code v hs =>
          if Z.leb 100 code && Z.ltb code 1000 then
            let response := {| resp_version := if Z.eqb v 1 then HTTP_11 else HTTP_10;
                               subject := code; resp_headers := hs |} in
            match validate b' response with
            | Ok _ => Ok {| client_rest := rest; client_headers := hs |}
            | Err e => Err e
            | Panic m => Panic m
            | Running => Running
            end
          else Err HttpError
        end
      | Err e => Err e
      | Panic m => Panic m
      | Running => Running
      end in
    (result, written)
  end.

End ConnectOn.

(** ** [extract_host_port] *)

Inductive WSUrlErrorKind := NoHostName.

Inductive HostPort :=
| HostPortOk (host : string) (port : Z)
| UrlError (kind : WSUrlErrorKind).

(** The address [establish_tcp] and [async_tcpstream] connect to: an
    explicit port wins; otherwise [secure] picks 443 or 80, and with
    [secure = None] the scheme decides ([wss] gives 443). *)
Definition extract_host_port (b : ClientBuilder) (secure : option bool) : HostPort :=
  let p := match port (url b), secure with
           | Some p, _ => p
           | None, None => if String.eqb (scheme (url b)) "wss" then 443 else 80
           | None, Some true => 443
           | None, Some false => 80
           end in
  match host_str (url b) with
  | Some h => HostPortOk h p
  | None => UrlError NoHostName
  end.

(** ** Concrete inputs *)

Module Samples.

Definition url_ws : Url :=
  {| scheme := "ws"; host_str := Some "test.ws"; port := None;
     path := "/"; query := None |}.

(** The RFC 6455 example nonce, the 16 bytes of [the sample nonce]. *)
Definition nonce : list Z := Codec.bytes_of_string "the sample nonce".

(** 16 other bytes, standing for what [WebSocketKey::new()] draws. *)
Definition rnd : list Z := Codec.bytes_of_string "0123456789abcdef".

(** The builder of the [connect_on] doc test after [build_request]. *)
Definition built : ClientBuilder :=
  fst (build_request rnd (Builder.key (Builder.init url_ws) nonce)).

Definition accept_rfc : string := "s3pPLMBiTxaQ9kYGzzhZRbK+xOo=".

Definition resp (v : Version) (hs : HeaderMap.t) : ResponseHead :=
  {| resp_version := v; subject := 101; resp_headers := hs |}.

(** The reply of the doc test. *)
Definition good_headers : HeaderMap.t :=
  [(UPGRADE, ["websocket"]); (CONNECTION, ["Upgrade"]);
   (SEC_WEBSOCKET_ACCEPT, [accept_rfc])].

(** The same reply without a [Connection] header. *)
Definition no_connection_headers : HeaderMap.t :=
  [(UPGRADE, ["websocket"]); (SEC_WEBSOCKET_ACCEPT, [accept_rfc])].

(** A stream carrying [text] and then end-of-file. *)
Definition text_stream (text : string) : Stream :=
  {| input := map Byte (list_ascii_of_string text); write_error := None |}.

Definition status_line : string := "HTTP/1.1 101 Switching Protocols" ++ crlf.

(** A parser that never succeeds, for runs that stop before parsing. *)
Definition no_parse : string -> ParseStatus := fun _ => ParseErr.

End Samples.

(** ** Lemmas on the header map *)

Lemma get_set_all_same (n : string) (vs : list string) (m : HeaderMap.t) :
  HeaderMap.get n (HeaderMap.set_all n vs m) = hd_error vs.
Proof.
  unfold HeaderMap.get; induction m as [|[n' vs'] m IH]; simpl.
  - rewrite String.eqb_refl; reflexivity.
  - destruct (String.eqb_spec n n') as [->|Hne]; simpl.
    + rewrite String.eqb_refl; reflexivity.
    + apply String.eqb_neq in Hne; rewrite Hne; exact IH.
Qed.

Lemma get_set_all_other (n n' : string) (vs : list string) (m : HeaderMap.t) :
  n <> n' -> HeaderMap.get n (HeaderMap.set_all n' vs m) = HeaderMap.get n m.
Proof.
  intro Hne; apply String.eqb_neq in Hne.
  unfold HeaderMap.get; induction m as [|[k vk] m IH]; simpl.
  - rewrite Hne; reflexivity.
  - destruct (String.eqb_spec n' k) as [->|Hk]; simpl.
    + rewrite Hne; reflexivity.
    + destruct (String.eqb n k); [reflexivity | exact IH].
Qed.

Lemma get_insert_same (n v : string) (m : HeaderMap.t) :
  HeaderMap.get n (HeaderMap.insert n v m) = Some v.
Proof. apply get_set_all_same. Qed.

Lemma get_insert_other (n n' v : string) (m : HeaderMap.t) :
  n <> n' -> HeaderMap.get n (HeaderMap.insert n' v m) = HeaderMap.get n m.
Proof. apply get_set_all_other. Qed.

Ltac names_differ := apply String.eqb_neq; reflexivity.

Lemma option_string_eqb_true (a b : option string) :
  option_string_eqb a b = true -> a = b.
Proof.
  destruct a, b; simpl; try discriminate; [|reflexivity].
  intro H; apply String.eqb_eq in H; subst; reflexivity.
Qed.

(** The accept value in the spec's words:
    base64(SHA1(sent_key ++ "258EAFA5-E914-47DA-95CA-C5AB0DC85B11")). *)
Definition spec_accept (sent_key : string) : string :=
  Codec.b64_encode (Sha1.sha1 (Codec.bytes_of_string (sent_key ++ Header.MAGIC_GUID))).

Definition with_resp_headers (r : ResponseHead) (hs : HeaderMap.t) : ResponseHead :=
  {| resp_version := resp_version r; subject := subject r; resp_headers := hs |}.

Lemma header_to_str_some (v s : string) : header_to_str v = Some s -> s = v.
Proof.
  unfold header_to_str; destruct forallb; intro H; inversion H; reflexivity.
Qed.

Lemma key_from_str_serialize (s : string) (k : list Z) :
  Header.key_from_str s = Some k -> Header.key_serialize k = s.
Proof.
  unfold Header.key_from_str, Header.key_serialize.
  destruct (Codec.b64_decode s) as [k'|]; [|discriminate].
  destruct (Nat.eqb (List.length k') 16); [|discriminate].
  destruct (String.eqb (Codec.b64_encode k') s) eqn:He; [|discriminate].
  intro H; inversion H; subst; apply String.eqb_eq; exact He.
Qed.

(** ** Claims *)

(** C1 (code_bug): the Connection check of [validate] reads the client's
    own request headers, so the response's [Connection] header never
    matters: replacing it (or dropping it, [vs = []]) leaves the result
    unchanged, and the doc-test reply without any [Connection] header is
    accepted. *)
Theorem validate_accepts_response_without_connection :
  (forall b r vs,
      validate b (with_resp_headers r (HeaderMap.set_all CONNECTION vs (resp_headers r)))
      = validate b r) /\
  HeaderMap.get CONNECTION Samples.no_connection_headers = None /\
  validate Samples.built (Samples.resp HTTP_11 Samples.no_connection_headers) = Ok tt.
Proof.
  split; [|split; vm_compute; reflexivity].
  intros b r vs; unfold validate; cbn [with_resp_headers resp_headers subject].
  rewrite !get_set_all_other by names_differ; reflexivity.
Qed.

(** C3 (corrected, counterexample): with the protocol [chat] offered, a
    reply naming the protocol [superchat] and the extension [x-unoffered]
    passes [validate]. *)
Lemma validate_accepts_unoffered_protocol :
  HeaderMap.get SEC_WEBSOCKET_PROTOCOL
    (headers (fst (build_request Samples.rnd
       (Builder.add_protocols (Builder.key (Builder.init Samples.url_ws) Samples.nonce)
                              ["chat"])))) = Some "chat" /\
  validate
    (fst (build_request Samples.rnd
       (Builder.add_protocols (Builder.key (Builder.init Samples.url_ws) Samples.nonce)
                              ["chat"])))
    (Samples.resp HTTP_11
       ((SEC_WEBSOCKET_PROTOCOL, ["superchat"]) :: (SEC_WEBSOCKET_EXTENSIONS, ["x-unoffered"])
        :: Samples.good_headers))
  = Ok tt.
Proof. split; vm_compute; reflexivity. Qed.

(** C3 (corrected, amended): [validate] does not read the response's
    [Sec-WebSocket-Protocol] or [Sec-WebSocket-Extensions] headers: any
    values there (or none) give the same result. *)
Theorem validate_ignores_protocol_and_extensions :
  forall b r vp ve,
    validate b (with_resp_headers r
       (HeaderMap.set_all SEC_WEBSOCKET_PROTOCOL vp
          (HeaderMap.set_all SEC_WEBSOCKET_EXTENSIONS ve (resp_headers r))))
    = validate b r.
Proof.
  intros b r vp ve; unfold validate; cbn [with_resp_headers resp_headers subject].
  rewrite !get_set_all_other by names_differ; reflexivity.
Qed.

(** C4 (confirmed): [validate] succeeds only when the response's
    [Sec-WebSocket-Accept] equals base64(SHA1(sent key ++ GUID)); with the key
    [the sample nonce], sent as [dGhlIHNhbXBsZSBub25jZQ==], the only value
    accepted is [s3pPLMBiTxaQ9kYGzzhZRbK+xOo=], and the doc-test reply
    carrying it is accepted. *)
Theorem validate_ok_accept :
  (forall b r, validate b r = Ok tt ->
     exists ks, HeaderMap.get SEC_WEBSOCKET_KEY (headers b) = Some ks /\
                HeaderMap.get SEC_WEBSOCKET_ACCEPT (resp_headers r) = Some (spec_accept ks)) /\
  (forall b, HeaderMap.get SEC_WEBSOCKET_KEY (headers (Builder.key b Samples.nonce))
             = Some "dGhlIHNhbXBsZSBub25jZQ==") /\
  (forall b r, HeaderMap.get SEC_WEBSOCKET_KEY (headers b) = Some "dGhlIHNhbXBsZSBub25jZQ==" ->
     validate b r = Ok tt ->
     HeaderMap.get SEC_WEBSOCKET_ACCEPT (resp_headers r) = Some Samples.accept_rfc) /\
  validate Samples.built (Samples.resp HTTP_11 Samples.good_headers) = Ok tt.
Proof.
  assert (Hgen : forall b r, validate b r = Ok tt ->
     exists ks, HeaderMap.get SEC_WEBSOCKET_KEY (headers b) = Some ks /\
                HeaderMap.get SEC_WEBSOCKET_ACCEPT (resp_headers r) = Some (spec_accept ks)).
  { intros b r; unfold validate.
    destruct (status_check (subject r)); [|discriminate].
    destruct (HeaderMap.get SEC_WEBSOCKET_KEY (headers b)) as [kv|]; [|discriminate].
    destruct (header_to_str kv) as [ks|] eqn:Hs; [|discriminate].
    destruct (Header.key_from_str ks) as [k|] eqn:Hk; [|discriminate].
    destruct (option_string_eqb (HeaderMap.get SEC_WEBSOCKET_ACCEPT (resp_headers r))
                                (Some (Header.accept_new k))) eqn:Ha; [|discriminate].
    intros _; exists kv; split; [reflexivity|].
    apply option_string_eqb_true in Ha; rewrite Ha.
    apply header_to_str_some in Hs; apply key_from_str_serialize in Hk; subst.
    reflexivity. }
  split; [exact Hgen|]; split; [|split].
  - intro b; unfold Builder.key; cbn [headers with_headers].
    rewrite get_insert_same; vm_compute; reflexivity.
  - intros b r Hk Hv; destruct (Hgen b r Hv) as [ks [Hk' Ha]].
    rewrite Hk in Hk'; inversion Hk'; subst; rewrite Ha; vm_compute; reflexivity.
  - vm_compute; reflexivity.
Qed.

Lemma validate_ok_accept_witness :
  HeaderMap.get SEC_WEBSOCKET_KEY (headers Samples.built) = Some "dGhlIHNhbXBsZSBub25jZQ==" /\
  HeaderMap.get SEC_WEBSOCKET_ACCEPT (resp_headers (Samples.resp HTTP_11 Samples.good_headers))
  = Some Samples.accept_rfc.
Proof.
  split; [vm_compute; reflexivity|].
  apply (proj1 (proj2 (proj2 validate_ok_accept)) Samples.built).
  - vm_compute; reflexivity.
  - vm_compute; reflexivity.
Defined.

(** C7 (confirmed): [validate] returns the "Status code must be Switching
    Protocols" error for every status other than 101, and the status check
    passes exactly for 101. *)
Theorem validate_rejects_non_101 :
  (forall b r, subject r <> 101 ->
     validate b r = Err (ResponseError "Status code must be Switching Protocols")) /\
  (forall code, status_check code <> None <-> code = 101).
Proof.
  split.
  - intros b r Hne; unfold validate, status_check.
    destruct (Z.eqb_spec (subject r) 101); [contradiction | reflexivity].
  - intro code; unfold status_check.
    destruct (Z.eqb_spec code 101); simpl; split; congruence.
Qed.

Lemma validate_rejects_non_101_witness :
  subject {| resp_version := HTTP_11; subject := 200; resp_headers := Samples.good_headers |} <> 101 /\
  validate Samples.built {| resp_version := HTTP_11; subject := 200;
                            resp_headers := Samples.good_headers |}
  = Err (ResponseError "Status code must be Switching Protocols").
Proof.
  split; [simpl; lia|].
  apply (proj1 validate_rejects_non_101); simpl; lia.
Defined.

(** C10 (confirmed): [validate] does not read the HTTP version of the
    response; the doc-test reply parsed as HTTP/1.0 is accepted. *)
Theorem validate_version_independent :
  (forall b r v,
      validate b {| resp_version := v; subject := subject r; resp_headers := resp_headers r |}
      = validate b r) /\
  validate Samples.built (Samples.resp HTTP_10 Samples.good_headers) = Ok tt.
Proof.
  split; [intros b [v0 s hs] v; reflexivity | vm_compute; reflexivity].
Qed.

(** A parser returning the doc-test reply, for runs that reach [validate]. *)
Definition doc_parse : string -> ParseStatus :=
  fun _ => Complete 0 101 1 Samples.good_headers.

(** C2 (code_bug): [connect_on] panics instead of returning an error: an
    I/O error from the first read hits [read_line(..).unwrap()]; and with a
    [Sec-WebSocket-Key] that a [custom_headers] call after [key] made
    non-base64, [WebSocketKey::from_str(..).unwrap()] in [validate] panics
    on a well-formed 101 reply. *)
Theorem connect_on_panics :
  (forall parse n rnd b e rest,
      fst (connect_on parse (S n) rnd b {| input := Fail e :: rest; write_error := None |})
      = Panic "called `Result::unwrap()` on an `Err` value") /\
  fst (connect_on doc_parse 5 Samples.rnd
         (Builder.configure Samples.url_ws
            [Builder.Key Samples.nonce;
             Builder.CustomHeaders [(SEC_WEBSOCKET_KEY, ["not base64"])]])
         (Samples.text_stream (Samples.status_line ++ crlf)))
  = Panic "called `Result::unwrap()` on an `Err` value".
Proof.
  split; [|vm_compute; reflexivity].
  intros parse n rnd b e rest; unfold connect_on.
  destruct (build_request rnd b); reflexivity.
Qed.

Lemma append_empty_r (s : string) : s ++ "" = s.
Proof. induction s as [|c s IH]; simpl; [reflexivity | rewrite IH; reflexivity]. Qed.

(** At end-of-file [read_line] reads nothing, so a buffer of four bytes or
    more that does not end in CR LF CR LF keeps the loop going forever. *)
Lemma read_head_eof_running (fuel : nat) (buf : string) :
  (4 <= String.length buf)%nat ->
  String.eqb (substring (String.length buf - 4) 4 buf) crlfcrlf = false ->
  read_head fuel [] buf = Running.
Proof.
  intros Hl He; induction fuel as [|f IH]; [reflexivity|].
  simpl read_head; rewrite append_empty_r.
  destruct (String.length buf <? 4)%nat eqn:Hlt.
  - apply Nat.ltb_lt in Hlt; lia.
  - rewrite He; exact IH.
Qed.

(** C5 (code_bug): end-of-file before CR LF CR LF is never turned into an
    error. After the status line alone the loop runs on for every amount of
    fuel; on an empty stream it panics at [buf.len() - 4]. *)
Theorem connect_on_eof_no_error :
  (forall parse fuel rnd b,
      fst (connect_on parse fuel rnd b (Samples.text_stream Samples.status_line)) = Running) /\
  (forall parse fuel rnd b,
      fst (connect_on parse (S fuel) rnd b (Samples.text_stream ""))
      = Panic "attempt to subtract with overflow").
Proof.
  split.
  - intros parse fuel rnd b; unfold connect_on.
    destruct (build_request rnd b) as [b' res]; cbn [write_error Samples.text_stream fst].
    destruct fuel as [|f]; [reflexivity|].
    change (read_head (S f) (input (Samples.text_stream Samples.status_line)) "")
      with (read_head f [] Samples.status_line).
    rewrite read_head_eof_running; [reflexivity | vm_compute; lia | vm_compute; reflexivity].
  - intros parse fuel rnd b; unfold connect_on.
    destruct (build_request rnd b); reflexivity.
Qed.

(** ** Builder configuration and [build_request] *)

Lemma configure_url_version (ops : list Builder.op) (b : ClientBuilder) :
  url (fold_left Builder.apply_op ops b) = url b /\
  version (fold_left Builder.apply_op ops b) = version b.
Proof.
  revert b; induction ops as [|o ops IH]; intro b; simpl; [split; reflexivity|].
  destruct (IH (Builder.apply_op b o)) as [-> ->].
  destruct o; split; reflexivity.
Qed.

Lemma build_request_resource (rnd : list Z) (b : ClientBuilder) :
  snd (build_request rnd b) = path_and_query (url b) /\
  version (fst (build_request rnd b)) = version b.
Proof. split; reflexivity. Qed.

Lemma prefix_app_l (a t : string) : String.prefix a (a ++ t) = true.
Proof.
  induction a as [|c a IH]; simpl; [destruct t; reflexivity|].
  destruct (ascii_dec c c); [exact IH | contradiction].
Qed.

Lemma prefix_app_both (a s t : string) :
  String.prefix (a ++ s) (a ++ t) = String.prefix s t.
Proof.
  induction a as [|c a IH]; simpl; [reflexivity|].
  destruct (ascii_dec c c); [exact IH | contradiction].
Qed.

Definition url_no_path : Url :=
  {| scheme := "foo"; host_str := Some "h"; port := None; path := ""; query := None |}.

(** C6 (corrected, counterexample): for a URL whose path is empty (a
    non-special scheme such as [foo://h]), the request line is
    [GET  HTTP/1.1]: the resource is empty, not [/]. *)
Lemma request_line_empty_path :
  String.prefix ("GET  HTTP/1.1" ++ crlf)
    (snd (connect_on Samples.no_parse 1 Samples.rnd (Builder.init url_no_path)
            (Samples.text_stream ""))) = true /\
  String.prefix ("GET / HTTP/1.1" ++ crlf)
    (snd (connect_on Samples.no_parse 1 Samples.rnd (Builder.init url_no_path)
            (Samples.text_stream ""))) = false.
Proof. split; vm_compute; reflexivity. Qed.

(** C6 (corrected, amended): for every URL and builder configuration, when
    the stream takes the writes, the bytes written begin with
    [GET <path-plus-query> HTTP/1.1] CR LF, the path and query copied from
    the URL as they are. *)
Theorem request_line_prefix :
  forall parse fuel rnd u ops s,
    write_error s = None ->
    String.prefix ("GET " ++ path_and_query u ++ " " ++ "HTTP/1.1" ++ crlf)
      (snd (connect_on parse fuel rnd (Builder.configure u ops) s)) = true.
Proof.
  intros parse fuel rnd u ops s Hw; unfold connect_on.
  destruct (build_request_resource rnd (Builder.configure u ops)) as [Hr Hv].
  destruct (configure_url_version ops (Builder.init u)) as [Hu Hv0].
  destruct (build_request rnd (Builder.configure u ops)) as [b' res].
  cbn [fst snd] in Hr, Hv; rewrite Hw; cbn [snd].
  unfold Builder.configure in Hr, Hv; rewrite Hu in Hr; rewrite Hv0 in Hv.
  rewrite Hr, Hv; cbn [Builder.init url version version_debug].
  rewrite !prefix_app_both; apply prefix_app_l.
Qed.

Lemma request_line_prefix_witness :
  write_error (Samples.text_stream "") = None /\
  String.prefix ("GET " ++ path_and_query Samples.url_ws ++ " " ++ "HTTP/1.1" ++ crlf)
    (snd (connect_on Samples.no_parse 3 Samples.rnd
            (Builder.configure Samples.url_ws [Builder.Origin "http://o"])
            (Samples.text_stream ""))) = true.
Proof.
  split; [reflexivity|].
  apply request_line_prefix; reflexivity.
Defined.

Ltac header_lookup :=
  repeat first [ rewrite get_insert_same | rewrite get_insert_other by names_differ ].

(** C8 (corrected, counterexample): after [version(WebSocket13)] and
    [key(the sample nonce)], a later [custom_headers] call carrying
    [Sec-WebSocket-Version: 8] and another key sends those values: the
    request carries neither version 13 nor the key set with [key]. *)
Lemma custom_headers_override_key_and_version :
  HeaderMap.get SEC_WEBSOCKET_VERSION
    (headers (fst (build_request Samples.rnd
       (Builder.configure Samples.url_ws
          [Builder.SetVersion Header.WebSocket13; Builder.Key Samples.nonce;
           Builder.CustomHeaders [(SEC_WEBSOCKET_KEY, ["Zm9vYmFyYmF6cXV4cXV1eA=="]);
                                  (SEC_WEBSOCKET_VERSION, ["8"])]])))) = Some "8" /\
  HeaderMap.get SEC_WEBSOCKET_KEY
    (headers (fst (build_request Samples.rnd
       (Builder.configure Samples.url_ws
          [Builder.SetVersion Header.WebSocket13; Builder.Key Samples.nonce;
           Builder.CustomHeaders [(SEC_WEBSOCKET_KEY, ["Zm9vYmFyYmF6cXV4cXV1eA=="]);
                                  (SEC_WEBSOCKET_VERSION, ["8"])]]))))
  = Some "Zm9vYmFyYmF6cXV4cXV1eA==" /\
  Header.key_serialize Samples.nonce <> "Zm9vYmFyYmF6cXV4cXV1eA==".
Proof. split; [|split]; vm_compute; [reflexivity | reflexivity | discriminate]. Qed.

(** C8 (corrected, amended): whatever the builder holds, the built request
    has [Upgrade: websocket] and [Connection: Upgrade]; it has version 13
    and the freshly drawn key unless [version] (resp. [key]) was called and
    not cleared since, in which case it keeps whatever value the builder
    holds for that header when the request is built. *)
Theorem build_request_computed_headers :
  forall rnd b,
    let h := headers (fst (build_request rnd b)) in
    HeaderMap.get UPGRADE h = Some "websocket" /\
    HeaderMap.get CONNECTION h = Some "Upgrade" /\
    HeaderMap.get SEC_WEBSOCKET_VERSION h =
      (if version_set b then HeaderMap.get SEC_WEBSOCKET_VERSION (headers b) else Some "13") /\
    HeaderMap.get SEC_WEBSOCKET_KEY h =
      (if key_set b then HeaderMap.get SEC_WEBSOCKET_KEY (headers b)
       else Some (Header.key_serialize rnd)).
Proof.
  intros rnd b h; subst h; unfold build_request; cbn [fst headers with_headers].
  destruct (version_set b), (key_set b), (host_str (url b));
    header_lookup; repeat split.
Qed.

Definition url_ws_443 : Url :=
  {| scheme := "ws"; host_str := Some "example.com"; port := url_port "ws" (Some 443);
     path := "/"; query := None |}.

(** C9 (corrected, counterexample): [ws://example.com:443] keeps its
    explicit port 443 (80 is the default of [ws]), yet the [Host] header is
    the bare [example.com]. *)
Lemma host_header_ws_443 :
  port url_ws_443 = Some 443 /\
  HeaderMap.get HOST (headers (fst (build_request Samples.rnd (Builder.init url_ws_443))))
  = Some "example.com".
Proof. split; vm_compute; reflexivity. Qed.

(** C9 (corrected, amended): for a URL with a host, the [Host] header is
    the bare host when [Url::port()] is absent (no port, or the scheme's
    default one), 80 or 443, whatever the scheme; for any other port p it is
    [host:p]. *)
Theorem host_header_value :
  forall rnd b h,
    host_str (url b) = Some h ->
    (port (url b) = None \/ port (url b) = Some 80 \/ port (url b) = Some 443 ->
     HeaderMap.get HOST (headers (fst (build_request rnd b))) = Some h) /\
    (forall p, port (url b) = Some p -> p <> 80 -> p <> 443 ->
     HeaderMap.get HOST (headers (fst (build_request rnd b)))
     = Some (h ++ ":" ++ string_of_Z p)).
Proof.
  intros rnd b h Hh; unfold build_request; cbn [fst headers with_headers].
  rewrite Hh.
  assert (Hhost : forall hs, HeaderMap.get HOST
    (if key_set b then
       (if version_set b then HeaderMap.insert UPGRADE Header.upgrade_websocket_value
          (HeaderMap.insert CONNECTION Header.connection_upgrade_value hs)
        else HeaderMap.insert SEC_WEBSOCKET_VERSION (Header.version_value Header.WebSocket13)
          (HeaderMap.insert UPGRADE Header.upgrade_websocket_value
             (HeaderMap.insert CONNECTION Header.connection_upgrade_value hs)))
     else HeaderMap.insert SEC_WEBSOCKET_KEY (Header.key_serialize rnd)
       (if version_set b then HeaderMap.insert UPGRADE Header.upgrade_websocket_value
          (HeaderMap.insert CONNECTION Header.connection_upgrade_value hs)
        else HeaderMap.insert SEC_WEBSOCKET_VERSION (Header.version_value Header.WebSocket13)
          (HeaderMap.insert UPGRADE Header.upgrade_websocket_value
             (HeaderMap.insert CONNECTION Header.connection_upgrade_value hs))))
    = HeaderMap.get HOST hs).
  { intro hs; destruct (version_set b), (key_set b); header_lookup; reflexivity. }
  rewrite Hhost, get_insert_same; unfold host_value.
  split.
  - intros [Hp | [Hp | Hp]]; rewrite Hp; reflexivity.
  - intros p Hp H80 H443; rewrite Hp.
    destruct (Z.eqb_spec p 80); [contradiction|].
    destruct (Z.eqb_spec p 443); [contradiction|]; reflexivity.
Qed.

Definition url_ws_8080 : Url :=
  {| scheme := "ws"; host_str := Some "example.com"; port := url_port "ws" (Some 8080);
     path := "/"; query := None |}.

Lemma host_header_value_witness :
  host_str (url (Builder.init url_ws_8080)) = Some "example.com" /\
  port (url (Builder.init url_ws_8080)) = Some 8080 /\
  HeaderMap.get HOST (headers (fst (build_request Samples.rnd (Builder.init url_ws_8080))))
  = Some ("example.com" ++ ":" ++ string_of_Z 8080).
Proof.
  split; [reflexivity|]; split; [vm_compute; reflexivity|].
  apply (proj2 (host_header_value Samples.rnd (Builder.init url_ws_8080) "example.com"
                  eq_refl) 8080); [vm_compute; reflexivity | lia | lia].
Defined.

(** ** Further properties of the client code *)

Lemma get_insert_if (n m v : string) (h : HeaderMap.t) :
  HeaderMap.get n (HeaderMap.insert m v h)
  = if String.eqb n m then Some v else HeaderMap.get n h.
Proof.
  destruct (String.eqb_spec n m) as [->|Hne];
    [apply get_insert_same | apply get_insert_other; exact Hne].
Qed.

Lemma get_remove_if (n m : string) (h : HeaderMap.t) :
  HeaderMap.get n (HeaderMap.remove m h)
  = if String.eqb n m then None else HeaderMap.get n h.
Proof.
  unfold HeaderMap.get, HeaderMap.remove; induction h as [|[k vs] h IH]; cbn [filter fst].
  - destruct (String.eqb n m); reflexivity.
  - destruct (String.eqb_spec m k) as [->|Hmk]; cbn [negb HeaderMap.get_all].
    + rewrite IH; destruct (String.eqb n k); reflexivity.
    + destruct (String.eqb n k) eqn:Hnk.
      * apply String.eqb_eq in Hnk; subst.
        apply String.eqb_neq in Hmk; rewrite String.eqb_sym, Hmk; reflexivity.
      * exact IH.
Qed.






(** X2: for a [ws] or [wss] URL with a host, [extract_host_port] with
    [secure = None] connects to the port written in the URL, even when the
    URL parser dropped it as the scheme's default, and to 80 ([ws]) or 443
    ([wss]) when none was written. *)
Theorem extract_host_port_url_port :
  forall s h pth q e,
    s = "ws" \/ s = "wss" ->
    extract_host_port
      (Builder.init {| scheme := s; host_str := Some h; port := url_port s e;
                       path := pth; query := q |}) None
    = HostPortOk h (match e with
                    | Some p => p
                    | None => if String.eqb s "wss" then 443 else 80
                    end).
Proof.
  intros s h pth q e [-> | ->]; destruct e as [p|]; unfold extract_host_port, url_port;
    cbn; try reflexivity.
  - destruct (Z.eqb_spec p 80) as [->|]; reflexivity.
  - destruct (Z.eqb_spec p 443) as [->|]; reflexivity.
Qed.

Lemma extract_host_port_url_port_witness :
  ("wss" = "ws" \/ "wss" = "wss") /\
  extract_host_port
    (Builder.init {| scheme := "wss"; host_str := Some "example.com";
                     port := url_port "wss" (Some 443); path := "/"; query := None |}) None
  = HostPortOk "example.com" 443.
Proof.
  split; [right; reflexivity|].
  apply (extract_host_port_url_port "wss" "example.com" "/" None (Some 443)).
  right; reflexivity.
Defined.

Ltac header_if :=
  repeat first [ rewrite get_insert_if | rewrite get_remove_if ].

(** X3: [build_request] touches only [Host], [Connection], [Upgrade],
    [Sec-WebSocket-Version] and [Sec-WebSocket-Key]: every other header the
    builder holds (Origin, protocols, extensions, custom headers) is sent as
    it is. *)
Theorem build_request_keeps_other_headers :
  forall rnd b n,
    n <> HOST -> n <> CONNECTION -> n <> UPGRADE ->
    n <> SEC_WEBSOCKET_VERSION -> n <> SEC_WEBSOCKET_KEY ->
    HeaderMap.get n (headers (fst (build_request rnd b))) = HeaderMap.get n (headers b).
Proof.
  intros rnd b n H1 H2 H3 H4 H5.
  apply String.eqb_neq in H1, H2, H3, H4, H5.
  unfold build_request; cbn [fst headers with_headers].
  destruct (version_set b), (key_set b), (host_str (url b)); header_if;
    rewrite ?H1, ?H2, ?H3, ?H4, ?H5; reflexivity.
Qed.

Lemma build_request_keeps_other_headers_witness :
  HeaderMap.get ORIGIN
    (headers (fst (build_request Samples.rnd (Builder.origin Samples.built "http://o"))))
  = Some "http://o".
Proof.
  rewrite (build_request_keeps_other_headers Samples.rnd
             (Builder.origin Samples.built "http://o") ORIGIN); try names_differ.
  vm_compute; reflexivity.
Defined.


(** X5: [clear_key] after [key], and [clear_version] after [version], bring
    back the defaults: the built request carries the freshly drawn key and
    version 13. *)
Theorem clear_key_and_version_restore_defaults :
  forall rnd b k v,
    HeaderMap.get SEC_WEBSOCKET_KEY
      (headers (fst (build_request rnd (Builder.clear_key (Builder.key b k)))))
    = Some (Header.key_serialize rnd) /\
    HeaderMap.get SEC_WEBSOCKET_VERSION
      (headers (fst (build_request rnd (Builder.clear_version (Builder.set_version b v)))))
    = Some "13".
Proof.
  intros rnd b k v;
    unfold build_request, Builder.key, Builder.clear_key, Builder.set_version,
      Builder.clear_version;
    cbn [fst headers with_headers version_set key_set url].
  split; destruct (version_set b), (key_set b), (host_str (url b)); header_lookup;
    reflexivity.
Qed.

(** X6: removing the key header with [clear_header] after [key] leaves the
    key flag set, so the built request carries no [Sec-WebSocket-Key] and
    [validate] fails with the request error for every 101 response. *)
Theorem clear_header_key_sends_no_key :
  forall rnd b k r,
    subject r = 101 ->
    HeaderMap.get SEC_WEBSOCKET_KEY
      (headers (fst (build_request rnd
         (Builder.clear_header (Builder.key b k) SEC_WEBSOCKET_KEY)))) = None /\
    validate (fst (build_request rnd
                (Builder.clear_header (Builder.key b k) SEC_WEBSOCKET_KEY))) r
    = Err (RequestError "Request Sec-WebSocket-Key was invalid").
Proof.
  intros rnd b k r Hr.
  assert (Hk : HeaderMap.get SEC_WEBSOCKET_KEY
      (headers (fst (build_request rnd
         (Builder.clear_header (Builder.key b k) SEC_WEBSOCKET_KEY)))) = None).
  { unfold build_request, Builder.key, Builder.clear_header;
      cbn [fst headers with_headers version_set key_set url].
    destruct (version_set b), (host_str (url b)); header_if; reflexivity. }
  split; [exact Hk|].
  unfold validate; rewrite Hr, Hk; reflexivity.
Qed.

Lemma clear_header_key_sends_no_key_witness :
  subject (Samples.resp HTTP_11 Samples.good_headers) = 101 /\
  validate (fst (build_request Samples.rnd
              (Builder.clear_header (Builder.key (Builder.init Samples.url_ws) Samples.nonce)
                 SEC_WEBSOCKET_KEY))) (Samples.resp HTTP_11 Samples.good_headers)
  = Err (RequestError "Request Sec-WebSocket-Key was invalid").
Proof.
  split; [reflexivity|].
  apply (clear_header_key_sends_no_key Samples.rnd (Builder.init Samples.url_ws)
           Samples.nonce); reflexivity.
Defined.

(** X7: [add_protocols] and [add_extensions] replace what an earlier call
    set rather than adding to it, and [clear_protocols] / [clear_extensions]
    remove the header. *)
Theorem add_protocols_replaces :
  forall b ps qs es fs,
    HeaderMap.get SEC_WEBSOCKET_PROTOCOL
      (headers (Builder.add_protocols (Builder.add_protocols b ps) qs))
    = Some (Builder.join_comma qs) /\
    HeaderMap.get SEC_WEBSOCKET_EXTENSIONS
      (headers (Builder.add_extensions (Builder.add_extensions b es) fs))
    = Some (Builder.join_comma fs) /\
    HeaderMap.get SEC_WEBSOCKET_PROTOCOL
      (headers (Builder.clear_protocols (Builder.add_protocols b ps))) = None /\
    HeaderMap.get SEC_WEBSOCKET_EXTENSIONS
      (headers (Builder.clear_extensions (Builder.add_extensions b es))) = None.
Proof.
  intros b ps qs es fs;
    unfold Builder.add_protocols, Builder.add_extensions, Builder.clear_protocols,
      Builder.clear_extensions; cbn [headers with_headers].
  repeat split; header_if; rewrite String.eqb_refl; reflexivity.
Qed.



(** X9: after [clear_header n] the builder holds no value for [n]
    ([get_header] yields [None]) and every other header is unchanged. *)
Theorem clear_header_lookup :
  forall b n m,
    HeaderMap.get m (headers (Builder.clear_header b n))
    = if String.eqb m n then None else HeaderMap.get m (headers b).
Proof.
  intros b n m; unfold Builder.clear_header; cbn [headers with_headers].
  apply get_remove_if.
Qed.

(** X10: the Upgrade check of [validate] ignores case: a response whose
    [Upgrade] value is visible ASCII lowering to [websocket] (such as
    [WebSocket]) gets the same verdict as one carrying [websocket]; and a
    response passes [validate] only if its [Upgrade] value lowers to
    [websocket]. *)
Theorem validate_upgrade_case_insensitive :
  (forall b r v,
     header_to_str v = Some v -> to_lowercase v = "websocket" ->
     validate b (with_resp_headers r (HeaderMap.set_all UPGRADE [v] (resp_headers r)))
     = validate b (with_resp_headers r (HeaderMap.set_all UPGRADE ["websocket"]
                                          (resp_headers r)))) /\
  (forall b r, validate b r = Ok tt ->
     exists v, HeaderMap.get UPGRADE (resp_headers r) = Some v /\
               header_to_str v = Some v /\ to_lowercase v = "websocket").
Proof.
  split.
  - intros b r v Hs Hl; unfold validate; cbn [with_resp_headers resp_headers subject].
    rewrite !get_set_all_same, !get_set_all_other by names_differ; cbn [hd_error].
    rewrite Hs; cbn [option_map]; rewrite Hl; reflexivity.
  - intros b r; unfold validate.
    destruct (status_check (subject r)); [|discriminate].
    destruct (HeaderMap.get SEC_WEBSOCKET_KEY (headers b)) as [kv|]; [|discriminate].
    destruct (header_to_str kv) as [ks|]; [|discriminate].
    destruct (Header.key_from_str ks) as [k|]; [|discriminate].
    destruct (option_string_eqb _ _); [|discriminate]; cbn [negb].
    destruct (HeaderMap.get UPGRADE (resp_headers r)) as [v|]; [|discriminate].
    destruct (header_to_str v) as [s|] eqn:Hs; cbn [option_map option_string_eqb];
      [|discriminate].
    destruct (String.eqb (to_lowercase s) "websocket") eqn:Hl; cbn [negb]; [|discriminate].
    intros _; exists v; apply header_to_str_some in Hs as Hsv; subst s.
    apply String.eqb_eq in Hl; repeat split; assumption.
Qed.

Lemma validate_upgrade_case_insensitive_witness :
  header_to_str "WebSocket" = Some "WebSocket" /\
  validate Samples.built
    (with_resp_headers (Samples.resp HTTP_11 Samples.good_headers)
       (HeaderMap.set_all UPGRADE ["WebSocket"]
          (resp_headers (Samples.resp HTTP_11 Samples.good_headers))))
  = Ok tt.
Proof.
  split; [reflexivity|].
  rewrite (proj1 validate_upgrade_case_insensitive Samples.built
             (Samples.resp HTTP_11 Samples.good_headers) "WebSocket"); [|reflexivity..].
  vm_compute; reflexivity.
Defined.












(** X14: running [build_request] again on an already built builder (as a
    second [connect] on the same builder does) changes no header but the
    key: a key that was drawn rather than set with [key] is drawn afresh. *)
Theorem build_request_twice :
  forall r1 r2 b,
    (forall n, n <> SEC_WEBSOCKET_KEY ->
       HeaderMap.get n (headers (fst (build_request r2 (fst (build_request r1 b)))))
       = HeaderMap.get n (headers (fst (build_request r1 b)))) /\
    HeaderMap.get SEC_WEBSOCKET_KEY
      (headers (fst (build_request r2 (fst (build_request r1 b)))))
    = (if key_set b then HeaderMap.get SEC_WEBSOCKET_KEY (headers (fst (build_request r1 b)))
       else Some (Header.key_serialize r2)).
Proof.
  intros r1 r2 b; unfold build_request;
    cbn [fst headers with_headers version_set key_set url].
  split.
  - intros n Hn; apply String.eqb_neq in Hn.
    destruct (version_set b), (key_set b), (host_str (url b)); header_if;
      rewrite ?Hn;
      destruct (String.eqb n HOST), (String.eqb n CONNECTION), (String.eqb n UPGRADE),
        (String.eqb n SEC_WEBSOCKET_VERSION); reflexivity.
  - destruct (version_set b), (key_set b), (host_str (url b)); header_lookup; reflexivity.
Qed.

Lemma build_request_twice_witness :
  HOST <> SEC_WEBSOCKET_KEY /\
  HeaderMap.get HOST (headers (fst (build_request Samples.nonce
                                     (fst (build_request Samples.rnd
                                        (Builder.init url_ws_8080))))))
  = HeaderMap.get HOST (headers (fst (build_request Samples.rnd (Builder.init url_ws_8080)))).
Proof.
  split; [names_differ|].
  apply (proj1 (build_request_twice Samples.rnd Samples.nonce (Builder.init url_ws_8080))).
  names_differ.
Defined.
